(** * A shallow embedding of the hpp-corbaserver Python client layer

    Two Python files are modelled:
    - [src/hpp/corbaserver/__init__.py], the package facade, as [init_py];
    - [tests/robot.py], the manual smoke test, as [robot_py].

    Both are straight-line module bodies.  They are embedded as lists of
    statements of a small Python fragment, run in a state-and-error monad.
    Everything the files do not contain (the omniORB runtime, the generated
    stub modules, the CORBA servers and the submodules [client], [robot],
    [problem_solver] and [benchmark]) is an arbitrary [world]: an oracle
    that answers imports, attribute lookups and calls.  Imports and calls
    may depend on the whole history of earlier events and may raise. *)

From Stdlib Require Import String List ZArith Bool Lia.
Import ListNotations.
Open Scope string_scope.
Set Warnings "-register-all".

(** ** Values, events and the external world *)

Inductive value : Type :=
| VNone
| VStr (s : string)
| VInt (n : Z)
| VFloat (m : Z) (e : Z)          (* the literal m * 10^e *)
| VList (vs : list value)
| VObj (id : nat).                (* an object living outside the files *)

(** Python exceptions: those the fragment raises itself, and any
    exception object raised by the outside world. *)
Inductive exn : Type :=
| NameError (x : string)
| AttributeError (a : string)
| ImportError (m : string)
| AssertionError
| Raised (v : value).

Inductive result (A : Type) : Type :=
| Ok (a : A)
| Err (e : exn).
Arguments Ok {A} a.
Arguments Err {A} e.

(** What is called: a plain callable, or method [m] of receiver [recv]
    (Python's [recv.m(...)]). *)
Inductive callee : Type :=
| CFun (f : value)
| CMeth (recv : value) (m : string).

(** A call argument: [None] for a positional one, [Some k] for [k=...]. *)
Definition arg (A : Type) : Type := (option string * A)%type.

(** Observable events, in the order the interpreter issues them. *)
Inductive event : Type :=
| EvImport (m : string)
| EvCall (c : callee) (args : list (arg value)).

Record world : Type := {
  w_import : list event -> string -> result value;
  w_getattr : value -> string -> option value;
  w_call : list event -> callee -> list (arg value) -> result value
}.

(** ** The monad: module namespace and event trace, with exceptions *)

Definition namespace : Type := list (string * value).

Record state : Type := mkState {
  st_trace : list event;
  st_ns : namespace
}.

Definition M (A : Type) : Type := state -> state * result A.

Definition ret {A} (a : A) : M A := fun st => (st, Ok a).
Definition raise {A} (e : exn) : M A := fun st => (st, Err e).
Definition bind {A B} (m : M A) (k : A -> M B) : M B :=
  fun st => let (st', r) := m st in
            match r with
            | Ok a => k a st'
            | Err e => (st', Err e)
            end.

Notation "x <- m ;; k" := (bind m (fun x => k))
  (at level 61, m at next level, right associativity).
Notation "m ;;; k" := (bind m (fun _ => k))
  (at level 61, right associativity).

Definition ns_lookup (x : string) (ns : namespace) : option value :=
  match find (fun p => String.eqb (fst p) x) ns with
  | Some (_, v) => Some v
  | None => None
  end.

(** Binding a name replaces its previous binding. *)
Definition ns_bind (x : string) (v : value) (ns : namespace) : namespace :=
  (x, v) :: filter (fun p => negb (String.eqb (fst p) x)) ns.

Definition load (x : string) : M value :=
  fun st => match ns_lookup x (st_ns st) with
            | Some v => (st, Ok v)
            | None => (st, Err (NameError x))
            end.

Definition store (x : string) (v : value) : M unit :=
  fun st => (mkState (st_trace st) (ns_bind x v (st_ns st)), Ok tt).

Section Primitives.
Variable w : world.

Definition getattr (v : value) (a : string) : M value :=
  match w_getattr w v a with
  | Some r => ret r
  | None => raise (AttributeError a)
  end.

(** An import or a call is recorded in the trace; the world answers it
    knowing every earlier event.  What the outside code does to the
    namespace of the module being executed is not represented: omniORB's
    [updateModule] and the stub modules' [openModule] place IDL
    definitions in the hpp.corbaserver module while it is imported.  The
    namespace here holds the bindings the file's own statements make, and
    statements about it say which of those are present, not that no other
    name is. *)
Definition import (m : string) : M value :=
  fun st => let h := st_trace st in
            (mkState (h ++ [EvImport m]) (st_ns st), w_import w h m).

Definition call (c : callee) (args : list (arg value)) : M value :=
  fun st => let h := st_trace st in
            (mkState (h ++ [EvCall c args]) (st_ns st), w_call w h c args).

End Primitives.

(** ** Expressions *)

Inductive expr : Type :=
| EName (x : string)
| EAttr (e : expr) (a : string)
| EStr (s : string)
| EInt (n : Z)
| EFloat (m : Z) (e : Z)
| EList (es : list expr)
| ECall (f : expr) (args : list (arg expr)).

(** Python evaluates the callee (for [r.m(...)]: the receiver and the
    method lookup) before the arguments, and the arguments left to right. *)
Fixpoint eval (w : world) (e : expr) : M value :=
  let fix eval_list (es : list expr) : M (list value) :=
    match es with
    | [] => ret []
    | e :: es => v <- eval w e ;; vs <- eval_list es ;; ret (v :: vs)
    end in
  let fix eval_args (xs : list (arg expr)) : M (list (arg value)) :=
    match xs with
    | [] => ret []
    | (k, e) :: xs => v <- eval w e ;; vs <- eval_args xs ;; ret ((k, v) :: vs)
    end in
  match e with
  | EName x => load x
  | EAttr e a => v <- eval w e ;; getattr w v a
  | EStr s => ret (VStr s)
  | EInt n => ret (VInt n)
  | EFloat m x => ret (VFloat m x)
  | EList es => vs <- eval_list es ;; ret (VList vs)
  | ECall (EAttr r m) args =>
      rv <- eval w r ;; getattr w rv m ;;;
      vs <- eval_args args ;; call w (CMeth rv m) vs
  | ECall f args =>
      fv <- eval w f ;; vs <- eval_args args ;; call w (CFun fv) vs
  end.

(** ** Statements *)

Inductive stmt : Type :=
| SImport (m : string)                                (* import m *)
| SImportFrom (rel : bool) (m : string) (names : list string)
                                      (* from m import ..  /  from .m import .. *)
| SAssign (x : string) (e : expr)                     (* x = e *)
| SExpr (e : expr)                                    (* e *)
| SAssert (e : expr)                                  (* assert e *)
| STry (body handler : list stmt).                    (* try: .. except: .. *)

Definition truthy (v : value) : bool :=
  match v with
  | VNone => false
  | VStr s => negb (String.eqb s "")
  | VInt n => negb (Z.eqb n 0)
  | VFloat m _ => negb (Z.eqb m 0)
  | VList vs => match vs with [] => false | _ => true end
  | VObj _ => true
  end.

(** [from .m import a, b] inside package [pkg] imports [pkg.m]; the
    import system also binds the submodule [m] as an attribute of the
    package, i.e. in the namespace being executed.  Each name is then
    looked up in the module, a missing one being an ImportError. *)
Definition import_from (w : world) (pkg : string) (rel : bool) (m : string)
    (names : list string) : M unit :=
  let full := if rel then pkg ++ "." ++ m else m in
  mv <- import w full ;;
  (if rel then store m mv else ret tt) ;;;
  (fix bind_names (ns : list string) : M unit :=
     match ns with
     | [] => ret tt
     | n :: ns =>
         (fun st => match w_getattr w mv n with
                    | Some v => store n v st
                    | None => (st, Err (ImportError n))
                    end) ;;; bind_names ns
     end) names.

Fixpoint exec (w : world) (pkg : string) (s : stmt) : M unit :=
  let fix exec_block (b : list stmt) : M unit :=
    match b with
    | [] => ret tt
    | s :: b => exec w pkg s ;;; exec_block b
    end in
  match s with
  | SImport m => v <- import w m ;; store m v
  | SImportFrom rel m names => import_from w pkg rel m names
  | SAssign x e => v <- eval w e ;; store x v
  | SExpr e => eval w e ;;; ret tt
  | SAssert e =>
      v <- eval w e ;; if truthy v then ret tt else raise AssertionError
  | STry body handler =>
      fun st => match exec_block body st with
                | (st', Err _) => exec_block handler st'
                | r => r
                end
  end.

Fixpoint exec_block (w : world) (pkg : string) (b : list stmt) : M unit :=
  match b with
  | [] => ret tt
  | s :: b => exec w pkg s ;;; exec_block w pkg b
  end.

(** Running a module body from an empty namespace and an empty trace. *)
Definition run (w : world) (pkg : string) (b : list stmt) : state * result unit :=
  exec_block w pkg b (mkState [] []).

(** ** The two source files *)

(** [src/hpp/corbaserver/__init__.py] *)
Definition init_py : list stmt := [
  SImport "omniORB";
  SExpr (ECall (EAttr (EName "omniORB") "updateModule")
               [(None, EStr "hpp.corbaserver")]);
  SImport "robot_idl";
  SImport "common_idl";
  SImport "obstacle_idl";
  SImport "problem_idl";
  SImport "server_idl_idl";
  SImportFrom true "client" ["Client"];
  SImportFrom true "robot" ["Robot"];
  SAssign "Transform" (EAttr (EAttr (EName "common_idl") "_0_hpp") "Transform");
  SImportFrom true "problem_solver" ["ProblemSolver"; "newProblem"; "loadServerPlugin"];
  SImportFrom true "benchmark" ["Benchmark"]
].

Definition init_pkg : string := "hpp.corbaserver".

Definition run_init (w : world) : state * result unit := run w init_pkg init_py.

Definition robot_method (m : string) (args : list expr) : stmt :=
  SExpr (ECall (EAttr (EAttr (EName "cl") "robot") m)
               (map (fun e => (None, e)) args)).

Definition config (xs : list Z) : expr := EList (map EInt xs).

(** [tests/robot.py]; a script, not a package. *)
Definition robot_py : list stmt := [
  SImportFrom false "hpp.corbaserver" ["Client"];
  SAssign "cl" (ECall (EName "Client") []);
  robot_method "createRobot" [EStr "test"];
  robot_method "appendJoint" [EStr "test"; EStr ""; EStr "root_joint"; EStr "planar";
                              config [0; 0; 0; 0; 0; 0; 1]%Z];
  robot_method "createSphere" [EStr "root_body"; EFloat 1 (-3)];
  robot_method "addObjectToJoint" [EStr "test"; EStr "root_joint"; EStr "root_body";
                                   config [0; 0; 1; 0; 0; 0; 1]%Z];
  robot_method "setRobot" [EStr "test"];
  SImportFrom false "hpp.corbaserver.robot" ["Robot"];
  SAssign "robot" (ECall (EName "Robot") [])
].

Definition run_robot (w : world) : state * result unit := run w "__main__" robot_py.

(** ** Observations on programs and traces *)

(** Statements that handle exceptions or check values. *)
Definition has_try (s : stmt) : bool :=
  match s with
  | STry _ _ => true
  | _ => false
  end.

Fixpoint has_assert (s : stmt) : bool :=
  match s with
  | SAssert _ => true
  | STry body handler => existsb has_assert body || existsb has_assert handler
  | _ => false
  end.

(** Every call expression in an expression or statement passes its
    arguments positionally. *)
Fixpoint expr_positional (e : expr) : bool :=
  match e with
  | EName _ | EStr _ | EInt _ | EFloat _ _ => true
  | EAttr e _ => expr_positional e
  | EList es => forallb expr_positional es
  | ECall f args =>
      expr_positional f
      && forallb (fun a => match fst a with None => true | Some _ => false end
                           && expr_positional (snd a)) args
  end.

Fixpoint stmt_positional (s : stmt) : bool :=
  match s with
  | SImport _ | SImportFrom _ _ _ => true
  | SAssign _ e | SExpr e | SAssert e => expr_positional e
  | STry body handler =>
      forallb stmt_positional body && forallb stmt_positional handler
  end.

Definition event_positional (ev : event) : Prop :=
  match ev with
  | EvImport _ => True
  | EvCall _ args => Forall (fun a => fst a = None) args
  end.

(** Names of the plain [import m] statements, and the names a module
    binds by [from .m import ...] from its own submodules. *)
Definition imported_modules (b : list stmt) : list string :=
  flat_map (fun s => match s with SImport m => [m] | _ => [] end) b.

Definition local_imports (b : list stmt) : list string :=
  flat_map (fun s => match s with
                     | SImportFrom true _ names => names
                     | _ => []
                     end) b.

Definition trace_imports (tr : list event) : list string :=
  flat_map (fun ev => match ev with EvImport m => [m] | _ => [] end) tr.

(** omniORB names the stub module generated from [x.idl] [x_idl]. *)
Definition is_stub_module (m : string) : bool :=
  let n := String.length m in
  (4 <=? n)%nat && String.eqb (substring (n - 4) 4 m) "_idl".

Definition ns_names (ns : namespace) : list string := map fst ns.

(** Arguments of the first call of method [m] in a trace, and the value
    of its [i]-th argument. *)
Fixpoint method_args (tr : list event) (m : string) : option (list (arg value)) :=
  match tr with
  | [] => None
  | EvCall (CMeth _ m') args :: tr =>
      if String.eqb m' m then Some args else method_args tr m
  | _ :: tr => method_args tr m
  end.

Definition arg_at (tr : list event) (m : string) (i : nat) : option value :=
  match method_args tr m with
  | Some args => option_map snd (nth_error args i)
  | None => None
  end.

(** Sum of squares of the last four entries of a 7-entry integer list:
    the squared norm of the rotation part of an hpp configuration. *)
Definition quat_norm2 (v : value) : option Z :=
  match v with
  | VList [_; _; _; VInt a; VInt b; VInt c; VInt d] =>
      Some (a * a + b * b + c * c + d * d)%Z
  | _ => None
  end.

Definition config_norm2 (tr : list event) (m : string) (i : nat) : option Z :=
  match arg_at tr m i with
  | Some v => quat_norm2 v
  | None => None
  end.

(** The events of a successful run of [tests/robot.py], given the
    [Client] class, the [robot] sub-handle and the [Robot] class. *)
Definition robot_trace (cls h rcls : value) : list event := [
  EvImport "hpp.corbaserver";
  EvCall (CFun cls) [];
  EvCall (CMeth h "createRobot") [(None, VStr "test")];
  EvCall (CMeth h "appendJoint")
    [(None, VStr "test"); (None, VStr ""); (None, VStr "root_joint");
     (None, VStr "planar");
     (None, VList (map VInt [0; 0; 0; 0; 0; 0; 1]%Z))];
  EvCall (CMeth h "createSphere") [(None, VStr "root_body"); (None, VFloat 1 (-3))];
  EvCall (CMeth h "addObjectToJoint")
    [(None, VStr "test"); (None, VStr "root_joint"); (None, VStr "root_body");
     (None, VList (map VInt [0; 0; 1; 0; 0; 0; 1]%Z))];
  EvCall (CMeth h "setRobot") [(None, VStr "test")];
  EvImport "hpp.corbaserver.robot";
  EvCall (CFun rcls) []
].

(** A world in which everything exists and every call succeeds. *)
Definition world_ok : world := {|
  w_import := fun _ _ => Ok (VObj 0);
  w_getattr := fun _ a => Some (VObj (String.length a));
  w_call := fun h _ _ => Ok (VObj (100 + length h))
|}.

(** The same world, except that the first remote method call raises. *)
Definition world_fail : world := {|
  w_import := fun _ _ => Ok (VObj 0);
  w_getattr := fun _ a => Some (VObj (String.length a));
  w_call := fun h c _ => match c with
                         | CMeth _ _ => Err (Raised (VStr "CORBA.TRANSIENT"))
                         | CFun _ => Ok (VObj (100 + length h))
                         end
|}.

(** The same world, except that remote methods return other values. *)
Definition world_ok' : world := {|
  w_import := fun _ _ => Ok (VObj 0);
  w_getattr := fun _ a => Some (VObj (String.length a));
  w_call := fun h c _ => match c with
                         | CMeth _ _ => Ok (VStr "other")
                         | CFun _ => Ok (VObj (100 + length h))
                         end
|}.

Example run_robot_ok : snd (run_robot world_ok) = Ok tt.
Proof. reflexivity. Qed.

Example run_init_ok : snd (run_init world_ok) = Ok tt.
Proof. reflexivity. Qed.

Example run_robot_fail :
  run_robot world_fail =
  (mkState [EvImport "hpp.corbaserver"; EvCall (CFun (VObj 6)) [];
            EvCall (CMeth (VObj 5) "createRobot") [(None, VStr "test")]]
           [("cl", VObj 101); ("Client", VObj 6)],
   Err (Raised (VStr "CORBA.TRANSIENT"))).
Proof. reflexivity. Qed.

(** ** Symbolic execution against an arbitrary world *)

Ltac split_world imp ga cl :=
  match goal with
  | H : Some _ = Some _ |- _ => injection H as H; subst
  | H : context [match imp ?h ?m with _ => _ end] |- _ =>
      destruct (imp h m) eqn:?; cbv in H
  | H : context [match ga ?v ?a with _ => _ end] |- _ =>
      destruct (ga v a) eqn:?; cbv in H
  | H : context [match cl ?h ?c ?a with _ => _ end] |- _ =>
      destruct (cl h c a) eqn:?; cbv in H
  | |- context [match imp ?h ?m with _ => _ end] =>
      destruct (imp h m) eqn:?; cbv
  | |- context [match ga ?v ?a with _ => _ end] =>
      destruct (ga v a) eqn:?; cbv
  | |- context [match cl ?h ?c ?a with _ => _ end] =>
      destruct (cl h c a) eqn:?; cbv
  end.

Lemma robot_run_ok (w : world) (st : state) :
  run_robot w = (st, Ok tt) ->
  exists pkg cls c h rmod rcls r,
    w_import w [] "hpp.corbaserver" = Ok pkg /\
    w_getattr w pkg "Client" = Some cls /\
    w_call w [EvImport "hpp.corbaserver"] (CFun cls) [] = Ok c /\
    w_getattr w c "robot" = Some h /\
    w_import w (firstn 7 (robot_trace cls h rcls)) "hpp.corbaserver.robot" = Ok rmod /\
    w_getattr w rmod "Robot" = Some rcls /\
    w_call w (firstn 8 (robot_trace cls h rcls)) (CFun rcls) [] = Ok r /\
    ns_lookup "cl" (st_ns st) = Some c /\
    ns_lookup "robot" (st_ns st) = Some r /\
    st_trace st = robot_trace cls h rcls.
Proof.
  destruct w as [imp ga cl]. unfold run_robot. intro H. cbv in H.
  repeat (split_world imp ga cl; try discriminate).
  injection H as <-. cbn.
  do 7 eexists. repeat split; eassumption || reflexivity.
Qed.

Lemma robot_run_cases (w : world) (k : nat) (c : callee) (args : list (arg value))
    (e : exn) :
  let (st, r) := run_robot w in
  nth_error (st_trace st) k = Some (EvCall c args) ->
  w_call w (firstn k (st_trace st)) c args = Err e ->
  r = Err e /\ length (st_trace st) = S k.
Proof.
  destruct (run_robot w) as [st r] eqn:Hrun.
  destruct w as [imp ga cl]. unfold run_robot in Hrun. cbv in Hrun.
  repeat (split_world imp ga cl; try discriminate).
  all: injection Hrun as <- <-; intros Hk He.
  all: repeat (destruct k as [|k]; cbn in Hk; try discriminate).
  all: injection Hk as <- <-; cbn in He |- *.
  all: first [ split; [congruence | reflexivity] | exfalso; congruence ].
Qed.

(** * Claims *)

(** ** C1 *)

(** The names the facade itself binds for client use: those it imports
    from its local submodules, and Transform. *)
Definition init_exported_names : list string := [
  "Client"; "Robot"; "Transform"; "ProblemSolver"; "newProblem";
  "loadServerPlugin"; "Benchmark"
].

(** C1 (counterexample): the facade does re-export a name from a local
    submodule outside {Client, Robot, ProblemSolver, Benchmark,
    Transform}: [newProblem], imported from [.problem_solver] and bound
    after a successful import. *)
Lemma init_exports_counterexample :
  In "newProblem" (local_imports init_py) /\
  ns_lookup "newProblem" (st_ns (fst (run_init world_ok))) <> None /\
  ~ In "newProblem" ["Client"; "Robot"; "ProblemSolver"; "Benchmark"; "Transform"].
Proof.
  split; [cbn; tauto |]. split; [cbv; discriminate |].
  cbn. intuition discriminate.
Qed.

(** C1 (amended): the names the facade imports from its local submodules
    are exactly Client, Robot, ProblemSolver, newProblem, loadServerPlugin
    and Benchmark, Transform is bound by assignment, and after a successful
    import each of these seven names is bound.  (Nothing is said about
    further names other code may place in the module.) *)
Theorem init_exports (w : world) (st : state) (H : run_init w = (st, Ok tt)) :
  local_imports init_py =
    ["Client"; "Robot"; "ProblemSolver"; "newProblem"; "loadServerPlugin";
     "Benchmark"] /\
  Forall (fun x => ns_lookup x (st_ns st) <> None) init_exported_names.
Proof.
  split; [reflexivity |].
  destruct w as [imp ga cl]. unfold run_init in H. cbv in H.
  repeat (split_world imp ga cl; try discriminate).
  injection H as <-.
  repeat constructor; cbv; discriminate.
Qed.

Lemma init_exports_witness :
  Forall (fun x => ns_lookup x (st_ns (fst (run_init world_ok))) <> None)
    init_exported_names.
Proof.
  apply (init_exports world_ok (fst (run_init world_ok))). reflexivity.
Defined.

(** ** C2 *)

Definition method_names (tr : list event) : list string :=
  flat_map (fun ev => match ev with
                      | EvCall (CMeth _ m) _ => [m]
                      | _ => []
                      end) tr.

(** C2: a successful run of tests/robot.py constructs a Client first
    (the [Client] attribute of the imported hpp.corbaserver module),
    then calls createRobot, appendJoint, createSphere, addObjectToJoint
    and setRobot, in that order and as its only method calls, each on the
    [robot] attribute of that Client, and last constructs a Robot. *)
Theorem robot_script_protocol (w : world) (st : state)
    (H : run_robot w = (st, Ok tt)) :
  exists pkg cls c h rmod rcls,
    w_import w [] "hpp.corbaserver" = Ok pkg /\
    w_getattr w pkg "Client" = Some cls /\
    w_call w [EvImport "hpp.corbaserver"] (CFun cls) [] = Ok c /\
    ns_lookup "cl" (st_ns st) = Some c /\
    w_getattr w c "robot" = Some h /\
    w_import w (firstn 7 (st_trace st)) "hpp.corbaserver.robot" = Ok rmod /\
    w_getattr w rmod "Robot" = Some rcls /\
    st_trace st = robot_trace cls h rcls /\
    method_names (st_trace st) =
      ["createRobot"; "appendJoint"; "createSphere"; "addObjectToJoint"; "setRobot"].
Proof.
  destruct (robot_run_ok w st H)
    as (pkg & cls & c & h & rmod & rcls & r & Hp & Hcls & Hc & Hh & Hm & Hr & _ & Hcl & _ & Htr).
  exists pkg, cls, c, h, rmod, rcls. rewrite Htr. repeat split; assumption.
Qed.

Lemma robot_script_protocol_witness :
  exists pkg cls c h rmod rcls,
    w_import world_ok [] "hpp.corbaserver" = Ok pkg /\
    w_getattr world_ok pkg "Client" = Some cls /\
    w_call world_ok [EvImport "hpp.corbaserver"] (CFun cls) [] = Ok c /\
    ns_lookup "cl" (st_ns (fst (run_robot world_ok))) = Some c /\
    w_getattr world_ok c "robot" = Some h /\
    w_import world_ok (firstn 7 (st_trace (fst (run_robot world_ok))))
      "hpp.corbaserver.robot" = Ok rmod /\
    w_getattr world_ok rmod "Robot" = Some rcls /\
    st_trace (fst (run_robot world_ok)) = robot_trace cls h rcls /\
    method_names (st_trace (fst (run_robot world_ok))) =
      ["createRobot"; "appendJoint"; "createSphere"; "addObjectToJoint"; "setRobot"].
Proof.
  apply (robot_script_protocol world_ok (fst (run_robot world_ok))). reflexivity.
Defined.

(** ** C3 *)

Definition stub_modules : list string :=
  ["robot_idl"; "common_idl"; "obstacle_idl"; "problem_idl"; "server_idl_idl"].

(** C3: the facade's plain imports are omniORB followed by exactly the
    five stub modules robot_idl, common_idl, obstacle_idl, problem_idl and
    server_idl_idl; its other imports are of its own submodules; and in
    every run the stub modules actually imported are a prefix of these
    five, in this order. *)
Theorem init_stub_imports :
  imported_modules init_py = "omniORB" :: stub_modules /\
  filter is_stub_module (imported_modules init_py) = stub_modules /\
  is_stub_module "omniORB" = false /\
  (forall w : world, exists n,
     filter is_stub_module (trace_imports (st_trace (fst (run_init w)))) =
     firstn n stub_modules).
Proof.
  split; [reflexivity |]. split; [reflexivity |]. split; [reflexivity |].
  intro w. destruct (run_init w) as [st r] eqn:Hrun. cbn [fst].
  destruct w as [imp ga cl]. unfold run_init in Hrun. cbv in Hrun.
  repeat (split_world imp ga cl; try discriminate).
  all: injection Hrun as <- <-.
  all: first [ exists 0; reflexivity | exists 1; reflexivity | exists 2; reflexivity
             | exists 3; reflexivity | exists 4; reflexivity | exists 5; reflexivity ].
Qed.

(** ** C4 *)

(** C4: after a successful import, [Transform] is bound to the very value
    of [common_idl._0_hpp.Transform], where [common_idl] is the module
    object returned by its import: the assignment copies the reference. *)
Theorem init_transform_alias (w : world) (st : state)
    (H : run_init w = (st, Ok tt)) :
  exists cm o t,
    ns_lookup "common_idl" (st_ns st) = Some cm /\
    w_import w (firstn 3 (st_trace st)) "common_idl" = Ok cm /\
    w_getattr w cm "_0_hpp" = Some o /\
    w_getattr w o "Transform" = Some t /\
    ns_lookup "Transform" (st_ns st) = Some t.
Proof.
  destruct w as [imp ga cl]. unfold run_init in H. cbv in H.
  repeat (split_world imp ga cl; try discriminate).
  injection H as <-. cbn.
  do 3 eexists. repeat split; eassumption || reflexivity.
Qed.

Lemma init_transform_alias_witness :
  exists cm o t,
    ns_lookup "common_idl" (st_ns (fst (run_init world_ok))) = Some cm /\
    w_import world_ok (firstn 3 (st_trace (fst (run_init world_ok)))) "common_idl"
      = Ok cm /\
    w_getattr world_ok cm "_0_hpp" = Some o /\
    w_getattr world_ok o "Transform" = Some t /\
    ns_lookup "Transform" (st_ns (fst (run_init world_ok))) = Some t.
Proof.
  apply (init_transform_alias world_ok (fst (run_init world_ok))). reflexivity.
Defined.

(** ** C5 *)

(** C5: neither file has an exception handler, and in tests/robot.py a
    call that raises ends the run: the exception it raised is the result
    of the script, unchanged, and no event follows the call. *)
Theorem robot_script_errors_propagate (w : world) (k : nat) (c : callee)
    (args : list (arg value)) (e : exn)
    (Hk : nth_error (st_trace (fst (run_robot w))) k = Some (EvCall c args))
    (He : w_call w (firstn k (st_trace (fst (run_robot w)))) c args = Err e) :
  existsb has_try robot_py = false /\ existsb has_try init_py = false /\
  snd (run_robot w) = Err e /\ length (st_trace (fst (run_robot w))) = S k.
Proof.
  pose proof (robot_run_cases w k c args e) as Hc.
  split; [reflexivity |]. split; [reflexivity |].
  destruct (run_robot w) as [st r]. cbn in *. exact (Hc Hk He).
Qed.

Lemma robot_script_errors_propagate_witness :
  snd (run_robot world_fail) = Err (Raised (VStr "CORBA.TRANSIENT")) /\
  length (st_trace (fst (run_robot world_fail))) = 3.
Proof.
  destruct (robot_script_errors_propagate world_fail 2
              (CMeth (VObj 5) "createRobot") [(None, VStr "test")]
              (Raised (VStr "CORBA.TRANSIENT")))
    as (_ & _ & H1 & H2); [reflexivity | reflexivity |].
  split; [exact H1 | exact H2].
Defined.

(** ** C6 *)

(** C6: tests/robot.py has no assertion, and whatever the remote methods
    return when they succeed, the run (events, final namespace and result)
    is the same. *)
Theorem robot_script_ignores_results (w1 w2 : world)
    (Himp : w_import w1 = w_import w2)
    (Hga : w_getattr w1 = w_getattr w2)
    (Hfun : forall h f a, w_call w1 h (CFun f) a = w_call w2 h (CFun f) a)
    (Hok1 : forall h r m a, exists v, w_call w1 h (CMeth r m) a = Ok v)
    (Hok2 : forall h r m a, exists v, w_call w2 h (CMeth r m) a = Ok v) :
  existsb has_assert robot_py = false /\ run_robot w1 = run_robot w2.
Proof.
  split; [reflexivity |].
  destruct w1 as [i1 g1 c1], w2 as [i2 g2 c2]; cbn in *; subst.
  unfold run_robot. cbv.
  repeat match goal with
  | E : i2 ?h ?m = _ |- context [i2 ?h ?m] => rewrite E; cbv
  | E : g2 ?v ?a = _ |- context [g2 ?v ?a] => rewrite E; cbv
  | E : c2 ?h ?c ?a = _ |- context [c2 ?h ?c ?a] => rewrite E; cbv
  | |- context [match i2 ?h ?m with _ => _ end] => destruct (i2 h m) eqn:?; cbv
  | |- context [match g2 ?v ?a with _ => _ end] => destruct (g2 v a) eqn:?; cbv
  | |- context [match c1 ?h (CMeth ?r ?m) ?a with _ => _ end] =>
      destruct (Hok1 h r m a) as [? ->]; cbv
  | |- context [match c2 ?h (CMeth ?r ?m) ?a with _ => _ end] =>
      destruct (Hok2 h r m a) as [? ->]; cbv
  | |- context [match c1 ?h (CFun ?f) ?a with _ => _ end] => rewrite (Hfun h f a)
  | |- context [match c2 ?h (CFun ?f) ?a with _ => _ end] =>
      destruct (c2 h (CFun f) a) eqn:?; cbv
  end.
  all: reflexivity.
Qed.

Lemma robot_script_ignores_results_witness :
  existsb has_assert robot_py = false /\ run_robot world_ok = run_robot world_ok'.
Proof.
  apply robot_script_ignores_results;
    [reflexivity | reflexivity | intros; reflexivity
    | intros; eexists; reflexivity | intros; eexists; reflexivity].
Defined.

(** ** C7 *)

(** C7: every call written in tests/robot.py passes its arguments
    positionally, and so does every call the script issues, in every run. *)
Theorem robot_script_positional (w : world) :
  forallb stmt_positional robot_py = true /\
  Forall event_positional (st_trace (fst (run_robot w))).
Proof.
  split; [reflexivity |].
  destruct (run_robot w) as [st r] eqn:Hrun. cbn [fst].
  destruct w as [imp ga cl]. unfold run_robot in Hrun. cbv in Hrun.
  repeat (split_world imp ga cl; try discriminate).
  all: injection Hrun as <- <-; cbn.
  all: repeat constructor.
Qed.

(** ** C8 *)

(** C8: in every import of the facade, whatever the outside world does,
    the second event is the call [omniORB.updateModule("hpp.corbaserver")]
    on the imported omniORB module, and every import other than that of
    omniORB (the stub modules and the local submodules whose names are
    re-exported) comes after it. *)
Theorem init_update_module_first (w : world) (j : nat) (m : string)
    (Hj : nth_error (st_trace (fst (run_init w))) j = Some (EvImport m))
    (Hm : m <> "omniORB") :
  1 < j /\
  exists om, w_import w [] "omniORB" = Ok om /\
    nth_error (st_trace (fst (run_init w))) 1 =
      Some (EvCall (CMeth om "updateModule") [(None, VStr init_pkg)]).
Proof.
  revert Hj.
  destruct (run_init w) as [st r] eqn:Hrun. cbn [fst].
  destruct w as [imp ga cl]. unfold run_init in Hrun. cbv in Hrun.
  repeat (split_world imp ga cl; try discriminate).
  all: injection Hrun as <- <-; intro Hj.
  all: repeat (destruct j as [|j]; cbn in Hj; try discriminate).
  all: injection Hj as <-; try (exfalso; apply Hm; reflexivity).
  all: split; [lia | eexists; split; [eassumption | reflexivity]].
Qed.

Lemma init_update_module_first_witness :
  1 < 2 /\
  exists om, w_import world_ok [] "omniORB" = Ok om /\
    nth_error (st_trace (fst (run_init world_ok))) 1 =
      Some (EvCall (CMeth om "updateModule") [(None, VStr init_pkg)]).
Proof.
  apply (init_update_module_first world_ok 2 "robot_idl");
    [reflexivity | discriminate].
Defined.

(** ** C9 *)

(** C9: in a successful run of tests/robot.py the robot name given to
    setRobot and appendJoint is the string "test" given to createRobot,
    the joint name given to addObjectToJoint is the "root_joint" given to
    appendJoint, and the body name given to addObjectToJoint is the
    "root_body" given to createSphere. *)
Theorem robot_script_names (w : world) (st : state)
    (H : run_robot w = (st, Ok tt)) :
  arg_at (st_trace st) "createRobot" 0 = Some (VStr "test") /\
  arg_at (st_trace st) "setRobot" 0 = arg_at (st_trace st) "createRobot" 0 /\
  arg_at (st_trace st) "appendJoint" 0 = arg_at (st_trace st) "createRobot" 0 /\
  arg_at (st_trace st) "appendJoint" 2 = Some (VStr "root_joint") /\
  arg_at (st_trace st) "addObjectToJoint" 1 = arg_at (st_trace st) "appendJoint" 2 /\
  arg_at (st_trace st) "createSphere" 0 = Some (VStr "root_body") /\
  arg_at (st_trace st) "addObjectToJoint" 2 = arg_at (st_trace st) "createSphere" 0.
Proof.
  destruct (robot_run_ok w st H) as (pkg & cls & c & h & rmod & rcls & r & Htr).
  rewrite (proj2 (proj2 (proj2 (proj2 (proj2 (proj2 (proj2 (proj2 (proj2 Htr))))))))).
  repeat split.
Qed.

Lemma robot_script_names_witness :
  arg_at (st_trace (fst (run_robot world_ok))) "createRobot" 0 = Some (VStr "test") /\
  arg_at (st_trace (fst (run_robot world_ok))) "setRobot" 0 = Some (VStr "test").
Proof.
  destruct (robot_script_names world_ok (fst (run_robot world_ok)))
    as (H1 & H2 & _); [reflexivity |].
  split; [exact H1 | rewrite H2; exact H1].
Defined.

(** ** C10 *)

(** C10: in a successful run of tests/robot.py, the last four entries of
    the configuration given to appendJoint and of the one given to
    addObjectToJoint have squares summing to exactly 1. *)
Theorem robot_script_unit_quaternions (w : world) (st : state)
    (H : run_robot w = (st, Ok tt)) :
  config_norm2 (st_trace st) "appendJoint" 4 = Some 1%Z /\
  config_norm2 (st_trace st) "addObjectToJoint" 3 = Some 1%Z.
Proof.
  destruct (robot_run_ok w st H) as (pkg & cls & c & h & rmod & rcls & r & Htr).
  rewrite (proj2 (proj2 (proj2 (proj2 (proj2 (proj2 (proj2 (proj2 (proj2 Htr))))))))).
  split; reflexivity.
Qed.

Lemma robot_script_unit_quaternions_witness :
  config_norm2 (st_trace (fst (run_robot world_ok))) "appendJoint" 4 = Some 1%Z.
Proof.
  apply (robot_script_unit_quaternions world_ok (fst (run_robot world_ok))).
  reflexivity.
Defined.

(** * Further properties of the two files *)

(** The events of a full import of the facade, given the omniORB module. *)
Definition init_trace (om : value) : list event := [
  EvImport "omniORB";
  EvCall (CMeth om "updateModule") [(None, VStr "hpp.corbaserver")];
  EvImport "robot_idl"; EvImport "common_idl"; EvImport "obstacle_idl";
  EvImport "problem_idl"; EvImport "server_idl_idl";
  EvImport "hpp.corbaserver.client"; EvImport "hpp.corbaserver.robot";
  EvImport "hpp.corbaserver.problem_solver"; EvImport "hpp.corbaserver.benchmark"
].

(** The world's answer to an event, given the events before it. *)
Definition answer (w : world) (h : list event) (ev : event) : result value :=
  match ev with
  | EvImport m => w_import w h m
  | EvCall c args => w_call w h c args
  end.

Ltac find_len n :=
  lazymatch n with
  | 13 => fail
  | _ => first [ exists n; split; [reflexivity | intros; first [lia | split; eassumption | eassumption]]
               | find_len (S n) ]
  end.

(** The facade's import, whatever the world does, issues a prefix of the
    fixed sequence [init_trace]: it calls nothing but
    [omniORB.updateModule], on the module its import returned, and imports
    each module at most once, in source order. *)
Theorem init_run_prefix (w : world) :
  exists om n,
    st_trace (fst (run_init w)) = firstn n (init_trace om) /\
    (1 < n -> w_import w [] "omniORB" = Ok om).
Proof.
  destruct (run_init w) as [st r] eqn:Hrun. cbn [fst].
  destruct w as [imp ga cl]. unfold run_init in Hrun. cbv in Hrun.
  repeat (split_world imp ga cl; try discriminate).
  all: injection Hrun as <- <-; eexists; find_len 0.
  Unshelve. all: exact VNone.
Qed.

(** The facade handles no error: an import or call of the facade that
    the world answers with an exception ends the import of the facade with
    that same exception, and no event follows it. *)
Theorem init_errors_propagate (w : world) (k : nat) (ev : event) (e : exn)
    (Hk : nth_error (st_trace (fst (run_init w))) k = Some ev)
    (He : answer w (firstn k (st_trace (fst (run_init w)))) ev = Err e) :
  snd (run_init w) = Err e /\ length (st_trace (fst (run_init w))) = S k.
Proof.
  revert Hk He.
  destruct (run_init w) as [st r] eqn:Hrun. cbn [fst snd].
  destruct w as [imp ga cl]. unfold run_init in Hrun. cbv in Hrun.
  repeat (split_world imp ga cl; try discriminate).
  all: injection Hrun as <- <-; intros Hk He.
  all: repeat (destruct k as [|k]; cbn in Hk; try discriminate).
  all: injection Hk as <-; cbn in He |- *.
  all: first [ split; [congruence | reflexivity] | exfalso; congruence ].
Qed.

(** A world in which the stub module robot_idl cannot be imported. *)
Definition world_no_robot_idl : world := {|
  w_import := fun _ m => if String.eqb m "robot_idl"
                         then Err (ImportError "robot_idl") else Ok (VObj 0);
  w_getattr := fun _ a => Some (VObj (String.length a));
  w_call := fun h _ _ => Ok (VObj (100 + length h))
|}.

Lemma init_errors_propagate_witness :
  snd (run_init world_no_robot_idl) = Err (ImportError "robot_idl") /\
  length (st_trace (fst (run_init world_no_robot_idl))) = 3.
Proof.
  apply (init_errors_propagate world_no_robot_idl 2 (EvImport "robot_idl"));
    reflexivity.
Defined.

(** If the imported common_idl module has no [_0_hpp] attribute, the
    facade's import fails: Transform stays unbound and the submodules
    problem_solver and benchmark are never imported; when the lines before
    the Transform line all succeeded (Robot is bound), the failure is the
    AttributeError for [_0_hpp]. *)
Theorem init_transform_missing (w : world) (cm : value)
    (Hcm : ns_lookup "common_idl" (st_ns (fst (run_init w))) = Some cm)
    (Hno : w_getattr w cm "_0_hpp" = None) :
  ~ (snd (run_init w) = Ok tt) /\
  ns_lookup "Transform" (st_ns (fst (run_init w))) = None /\
  ~ In "hpp.corbaserver.problem_solver" (trace_imports (st_trace (fst (run_init w)))) /\
  ~ In "hpp.corbaserver.benchmark" (trace_imports (st_trace (fst (run_init w)))) /\
  (~ (ns_lookup "Robot" (st_ns (fst (run_init w))) = None) ->
   snd (run_init w) = Err (AttributeError "_0_hpp")).
Proof.
  revert Hcm.
  destruct (run_init w) as [st r] eqn:Hrun. cbn [fst snd].
  destruct w as [imp ga cl]. cbn in Hno. unfold run_init in Hrun. cbv in Hrun.
  repeat (split_world imp ga cl; try discriminate).
  all: injection Hrun as <- <-; intro Hcm; cbv in Hcm; try discriminate.
  all: inversion Hcm; subst cm; try (exfalso; congruence).
  all: cbn; intuition congruence.
Qed.

(** A world whose common_idl module lacks [_0_hpp]. *)
Definition world_no_0_hpp : world := {|
  w_import := fun _ m => if String.eqb m "common_idl" then Ok (VObj 1) else Ok (VObj 0);
  w_getattr := fun v a => match v with
                          | VObj 1 => None
                          | _ => Some (VObj (String.length a))
                          end;
  w_call := fun h _ _ => Ok (VObj (100 + length h))
|}.

Lemma init_transform_missing_witness :
  snd (run_init world_no_0_hpp) = Err (AttributeError "_0_hpp").
Proof.
  apply (init_transform_missing world_no_0_hpp (VObj 1));
    [reflexivity | reflexivity | discriminate].
Defined.

(** [from .problem_solver import ProblemSolver, newProblem, loadServerPlugin]
    binds the names one by one: if the submodule has ProblemSolver but no
    newProblem, the import fails with ImportError naming newProblem,
    ProblemSolver stays bound, loadServerPlugin is not bound and the
    benchmark submodule is never imported. *)
Theorem init_missing_name (w : world) (pm ps : value)
    (Hpm : ns_lookup "problem_solver" (st_ns (fst (run_init w))) = Some pm)
    (Hps : w_getattr w pm "ProblemSolver" = Some ps)
    (Hnp : w_getattr w pm "newProblem" = None) :
  snd (run_init w) = Err (ImportError "newProblem") /\
  ns_lookup "ProblemSolver" (st_ns (fst (run_init w))) = Some ps /\
  ns_lookup "loadServerPlugin" (st_ns (fst (run_init w))) = None /\
  ~ In "hpp.corbaserver.benchmark" (trace_imports (st_trace (fst (run_init w)))).
Proof.
  revert Hpm.
  destruct (run_init w) as [st r] eqn:Hrun. cbn [fst snd].
  destruct w as [imp ga cl]. cbn in Hps, Hnp. unfold run_init in Hrun. cbv in Hrun.
  repeat (split_world imp ga cl; try discriminate).
  all: injection Hrun as <- <-; intro Hpm; cbv in Hpm; try discriminate.
  all: inversion Hpm; subst pm; try (exfalso; congruence).
  all: cbn; rewrite Hps in *; repeat match goal with H : Some _ = Some _ |- _ =>
         injection H as H; subst end.
  all: intuition discriminate.
Qed.

(** A world whose problem_solver submodule lacks newProblem. *)
Definition world_no_newProblem : world := {|
  w_import := fun _ m => if String.eqb m "hpp.corbaserver.problem_solver"
                         then Ok (VObj 2) else Ok (VObj 0);
  w_getattr := fun v a => match v with
                          | VObj 2 => if String.eqb a "newProblem" then None
                                      else Some (VObj 3)
                          | _ => Some (VObj (String.length a))
                          end;
  w_call := fun h _ _ => Ok (VObj (100 + length h))
|}.

Lemma init_missing_name_witness :
  snd (run_init world_no_newProblem) = Err (ImportError "newProblem").
Proof.
  apply (init_missing_name world_no_newProblem (VObj 2) (VObj 3)); reflexivity.
Defined.

(** The names tests/robot.py binds, in order. *)
Definition robot_bound_names : list string := ["Client"; "cl"; "Robot"; "robot"].

(** Every run of tests/robot.py, failed or not, issues a prefix of the
    events of a successful run; once the Client is constructed and has a
    [robot] attribute, every method is called on that attribute. *)
Theorem robot_run_prefix (w : world) :
  exists cls c h rcls n,
    st_trace (fst (run_robot w)) = firstn n (robot_trace cls h rcls) /\
    (2 < n -> w_call w [EvImport "hpp.corbaserver"] (CFun cls) [] = Ok c /\
              w_getattr w c "robot" = Some h).
Proof.
  destruct (run_robot w) as [st r] eqn:Hrun. cbn [fst].
  destruct w as [imp ga cl]. unfold run_robot in Hrun. cbv in Hrun.
  repeat (split_world imp ga cl; try discriminate).
  all: injection Hrun as <- <-; do 4 eexists; find_len 0.
  Unshelve. all: exact VNone.
Qed.

(** A failed run of tests/robot.py leaves the first names of
    [robot_bound_names] bound, and nothing else. *)
Theorem robot_ns_prefix (w : world) :
  exists n, ns_names (st_ns (fst (run_robot w))) = rev (firstn n robot_bound_names).
Proof.
  destruct (run_robot w) as [st r] eqn:Hrun. cbn [fst].
  destruct w as [imp ga cl]. unfold run_robot in Hrun. cbv in Hrun.
  repeat (split_world imp ga cl; try discriminate).
  all: injection Hrun as <- <-.
  all: first [ exists 0; reflexivity | exists 1; reflexivity | exists 2; reflexivity
             | exists 3; reflexivity | exists 4; reflexivity ].
Qed.

(** In tests/robot.py a failing import propagates as a failing call does:
    the exception the world raises for any event ends the script with that
    exception, and no event follows it. *)
Theorem robot_errors_propagate_any (w : world) (k : nat) (ev : event) (e : exn)
    (Hk : nth_error (st_trace (fst (run_robot w))) k = Some ev)
    (He : answer w (firstn k (st_trace (fst (run_robot w)))) ev = Err e) :
  snd (run_robot w) = Err e /\ length (st_trace (fst (run_robot w))) = S k.
Proof.
  revert Hk He.
  destruct (run_robot w) as [st r] eqn:Hrun. cbn [fst snd].
  destruct w as [imp ga cl]. unfold run_robot in Hrun. cbv in Hrun.
  repeat (split_world imp ga cl; try discriminate).
  all: injection Hrun as <- <-; intros Hk He.
  all: repeat (destruct k as [|k]; cbn in Hk; try discriminate).
  all: injection Hk as <-; cbn in He |- *.
  all: first [ split; [congruence | reflexivity] | exfalso; congruence ].
Qed.

(** A world in which the submodule hpp.corbaserver.robot cannot be
    imported. *)
Definition world_no_robot_module : world := {|
  w_import := fun _ m => if String.eqb m "hpp.corbaserver.robot"
                         then Err (ImportError "hpp.corbaserver.robot") else Ok (VObj 0);
  w_getattr := fun _ a => Some (VObj (String.length a));
  w_call := fun h _ _ => Ok (VObj (100 + length h))
|}.

Lemma robot_errors_propagate_any_witness :
  snd (run_robot world_no_robot_module) = Err (ImportError "hpp.corbaserver.robot") /\
  length (st_trace (fst (run_robot world_no_robot_module))) = 8.
Proof.
  apply (robot_errors_propagate_any world_no_robot_module 7
           (EvImport "hpp.corbaserver.robot")); reflexivity.
Defined.
